(** * Freight: job/batch lifecycle engine

    A shallow embedding of the Freight migration service
    (worker tasks, queue routing and the job-management handlers)
    together with the properties its design document states about it. *)

From Stdlib Require Import ZArith Lia.
From Stdlib Require QArith.
From stdpp Require Import base option list strings pretty gmap fin_maps.
From Equations Require Import Equations.

Open Scope Z_scope.

(** ** Python values

    The handlers and tasks exchange JSON-like dictionaries
    ([Dict[str, Any]]).  Only the shapes that occur in the code are
    modelled. *)

#[warnings="-register-all"] Inductive value : Type :=
| VNone
| VStr (s : string)
| VInt (n : Z)
| VList (l : list value).

(** A Python [dict] with string keys. *)
Abbreviation pydict := (gmap string value).

(** [len(xs)] as a Python integer. *)
Definition len {A : Type} (xs : list A) : Z := Z.of_nat (length xs).

(** ** The handler monad

    A handler runs against the service state, either returning a value or
    raising an [HTTPException]; the state is threaded explicitly. *)

Record HTTPException : Type := mkHTTPException {
  status_code : Z;
  detail : string
}.

Inductive result (A : Type) : Type :=
| Ok (a : A)
| Raise (e : HTTPException).
Arguments Ok {A} a.
Arguments Raise {A} e.

Module Handler.
Section WithState.
Context {S : Type}.

Definition M (A : Type) : Type := S -> result A * S.

Definition ret {A} (a : A) : M A := fun st => (Ok a, st).

Definition raise {A} (e : HTTPException) : M A := fun st => (Raise e, st).

Definition bind {A B} (m : M A) (k : A -> M B) : M B :=
  fun st =>
    match m st with
    | (Ok a, st') => k a st'
    | (Raise e, st') => (Raise e, st')
    end.

Definition response {A} (m : M A) (st : S) : result A := fst (m st).

Definition final {A} (m : M A) (st : S) : S := snd (m st).

End WithState.
Arguments M : clear implicits.
End Handler.

#[export] Instance handler_ret {S} : MRet (Handler.M S) := @Handler.ret S.

#[export] Instance handler_bind {S} : MBind (Handler.M S) :=
  fun A B k m => Handler.bind m k.

(** ** API models (freight_mcp_server.py) *)

Inductive JobStatus : Type := PENDING | RUNNING | COMPLETED | FAILED.

(** [JobStatus] is a [str] enum: the string each member carries. *)
Definition JobStatus_value (s : JobStatus) : string :=
  match s with
  | PENDING => "pending"
  | RUNNING => "running"
  | COMPLETED => "completed"
  | FAILED => "failed"
  end.

Inductive LogStatus : Type := SUCCESS | LOG_FAILED | RETRYING.

Definition LogStatus_value (s : LogStatus) : string :=
  match s with
  | SUCCESS => "success"
  | LOG_FAILED => "failed"
  | RETRYING => "retrying"
  end.

(** [datetime] values, as microseconds since the epoch. *)
Abbreviation datetime := Z (only parsing).

Record CreateJobRequest : Type := mkCreateJobRequest {
  source_config : pydict;
  target_config : pydict;
  batch_size : Z;
  max_retries : Z;
  req_started_by : string
}.

(** The defaults declared on the request model. *)
Definition default_batch_size : Z := 1000.

Definition default_max_retries : Z := 3.

Record MigrationJob : Type := mkMigrationJob {
  id : string;
  tenant_id : string;
  status : JobStatus;
  record_count : Z;
  failed_batches : Z;
  started_by : string;
  created_at : datetime;
  updated_at : datetime
}.

Record MigrationLog : Type := mkMigrationLog {
  log_id : string;
  log_job_id : string;
  log_tenant_id : string;
  record_id : string;
  log_status : LogStatus;
  error_message : option string;
  retry_count : Z;
  timestamp : datetime
}.

Record RetryRequest : Type := mkRetryRequest {
  batch_ids : option (list string);
  retry_max_retries : option Z
}.

(** ** Service state

    The handlers and tasks run against the migration store and the broker
    queues.  The code declares the job and log models above; the batch
    table follows the design document. *)

(** Modelled from the spec: the statuses of a batch (section 3); the
    repository declares job and log statuses only. *)
Inductive BatchStatus : Type :=
| QUEUED | BATCH_RUNNING | SUCCEEDED | BATCH_FAILED | EXHAUSTED.

(** Modelled from the spec: the batch row of the ledger (section 3), for
    which the repository declares no class. *)
Record Batch : Type := mkBatch {
  batch_id : string;
  batch_job_id : string;
  batch_tenant_id : string;
  records : list pydict;
  attempt_count : Z;
  batch_status : BatchStatus;
  last_error : option string
}.

(** A message published to a broker queue: task name and arguments. *)
Record TaskMessage : Type := mkTaskMessage {
  task : string;
  args : list value
}.

(** Modelled from the spec: the three ledger tables (section 6) and one
    FIFO per broker queue.  The repository has no store of its own. *)
Record Ledger : Type := mkLedger {
  jobs : gmap string MigrationJob;
  batches : gmap (string * string) Batch;
  log_entries : list MigrationLog;
  queues : gmap string (list TaskMessage)
}.

Definition empty_ledger : Ledger :=
  {| jobs := ∅; batches := ∅; log_entries := []; queues := ∅ |}.

Abbreviation M := (Handler.M Ledger).

(** ** Handlers (freight_mcp_server.py) *)

Module Server.

(** Tenant authentication dependency: [if not x_tenant_id: raise ...]. *)
Definition get_tenant_id (x_tenant_id : string) : M string :=
  if decide (x_tenant_id = "")
  then Handler.raise (mkHTTPException 400 "X-Tenant-ID header required")
  else mret x_tenant_id.

(** [create_job]; [uuid4] is the string of the fresh UUID and
    [utcnow1], [utcnow2] the two clock readings the body takes. *)
Definition create_job (uuid4 : string) (utcnow1 utcnow2 : datetime)
    (job_request : CreateJobRequest) (tenant : string) : M MigrationJob :=
  let job_id := uuid4 in
  let job :=
    {| id := job_id;
       tenant_id := tenant;
       status := PENDING;
       record_count := 0;
       failed_batches := 0;
       started_by := req_started_by job_request;
       created_at := utcnow1;
       updated_at := utcnow2 |} in
  mret job.

Definition list_jobs (status_filter : option JobStatus) (limit offset : Z)
    (tenant : string) : M (list MigrationJob) :=
  let jobs := [] in
  mret jobs.

Definition get_job (job_id : string) (tenant : string) : M MigrationJob :=
  Handler.raise (mkHTTPException 404 "Job not found").

(** Python truthiness of [Optional[List[str]]]: [None] and [[]] are falsy. *)
Definition truthy (l : option (list string)) : bool :=
  match l with
  | Some (_ :: _) => true
  | _ => false
  end.

Definition retry_job (job_id : string) (retry_request : RetryRequest)
    (tenant : string) : M pydict :=
  mret (<["message" := VStr ("Retry initiated for job " +:+ job_id)]>
        (<["job_id" := VStr job_id]>
        (<["retry_count" :=
             if truthy (batch_ids retry_request)
             then VInt (len (default [] (batch_ids retry_request)))
             else VStr "all_failed"]> ∅))).

Definition cancel_job (job_id : string) (tenant : string) : M pydict :=
  mret (<["message" := VStr ("Job " +:+ job_id +:+ " cancelled")]>
        (<["job_id" := VStr job_id]> ∅)).

Definition get_job_logs (job_id : string) (status_filter : option LogStatus)
    (limit offset : Z) (tenant : string) : M (list MigrationLog) :=
  let logs := [] in
  mret logs.

(** An endpoint resolves the tenant header first ([Depends(get_tenant_id)])
    and then runs the handler body. *)
Definition endpoint {A} (x_tenant_id : string) (body : string -> M A) : M A :=
  tenant ← get_tenant_id x_tenant_id; body tenant.

End Server.

(** ** Worker (worker/main.py, worker/tasks.py) *)

Module Worker.

(** Queue configuration: [celery_app.conf.task_routes]. *)
Definition task_routes : gmap string (gmap string string) :=
  <["freight.worker.tasks.process_migration_batch" := {["queue" := "default"]}]>
  (<["freight.worker.tasks.retry_failed_batch" := {["queue" := "high_priority"]}]> ∅).

(** The queue a task name is routed to, if the table names one. *)
Definition route (task_name : string) : option string :=
  task_routes !! task_name ≫= (fun r => r !! "queue").

(** The bound task's request context; only [retries] is read. *)
Record Request : Type := mkRequest { retries : Z }.

Definition process_migration_batch (self : Request)
    (tenant job batch : string) (recs : list pydict) : M pydict :=
  mret (<["tenant_id" := VStr tenant]>
        (<["job_id" := VStr job]>
        (<["batch_id" := VStr batch]>
        (<["processed" := VInt (len recs)]>
        (<["failed" := VInt 0]>
        (<["errors" := VList []]> ∅)))))).

Definition retry_failed_batch (self : Request)
    (tenant job batch : string) : M pydict :=
  mret (<["tenant_id" := VStr tenant]>
        (<["job_id" := VStr job]>
        (<["batch_id" := VStr batch]>
        (<["retry_attempt" := VInt (retries self + 1)]>
        (<["status" := VStr "retried"]> ∅))))).

Definition health_check : pydict :=
  <["status" := VStr "healthy"]> (<["worker" := VStr "operational"]> ∅).

End Worker.

(** ** Batcher *)

Module Batcher.

Inductive Error : Type := InvalidConfiguration.

(** Consecutive slices of [n] elements; the last one takes what is left. *)
Equations? chunks {A : Type} (n : nat) (l : list A) : list (list A)
  by wf (length l) lt :=
chunks n l with decide (n = 0%nat ∨ l = []) => {
  | left _ := [];
  | right _ := take n l :: chunks n (drop n l) }.
Proof.
  rewrite length_drop. destruct l; [tauto|]. simpl. lia.
Qed.

Section WithIds.
(** The identifier of the batch at a given index of a job. *)
Variable mk_batch_id : string -> nat -> string.

Definition mk_batch (job tenant : string) (i : nat) (recs : list pydict) : Batch :=
  {| batch_id := mk_batch_id job i;
     batch_job_id := job;
     batch_tenant_id := tenant;
     records := recs;
     attempt_count := 0;
     batch_status := QUEUED;
     last_error := None |}.

(** Modelled from the spec: the Batcher (section 4.1), which the
    repository does not implement.  It cuts the record set into
    consecutive slices of [size] records, numbers them from 0 and names
    each from the job ID and its index; a size that is not positive is
    refused. *)
Definition batcher (job tenant : string) (R : list pydict) (size : Z)
    : Error + list Batch :=
  if decide (size <= 0) then inl InvalidConfiguration
  else inr (imap (mk_batch job tenant) (chunks (Z.to_nat size) R)).

End WithIds.

(** [ceil(n / b)] on naturals. *)
Definition ceil_div (n b : nat) : nat := ((n + (b - 1)) / b)%nat.

(** One possible naming of batches: the job ID followed by the index. *)
Definition numbered_batch_id (job : string) (i : nat) : string :=
  job +:+ "-" +:+ pretty i.

End Batcher.

(** ** Dispatcher *)

Module Dispatcher.

Inductive Lane : Type := Normal | High.

#[export] Instance Lane_eq_dec : EqDecision Lane.
Proof. solve_decision. Defined.

(** Modelled from the spec: the closed set of work items (design notes,
    section 9), each carrying the identifying fields of the task payload;
    the repository names its tasks by string only. *)
Inductive WorkItem : Type :=
| BatchProcess (tenant job batch : string)
| BatchRetry (tenant job batch : string).

(** The Celery task a work item is published as. *)
Definition task_name (w : WorkItem) : string :=
  match w with
  | BatchProcess _ _ _ => "freight.worker.tasks.process_migration_batch"
  | BatchRetry _ _ _ => "freight.worker.tasks.retry_failed_batch"
  end.

(** The lane behind a broker queue name. *)
Definition lane_of_queue (q : string) : Lane :=
  if decide (q = "high_priority") then High else Normal.

(** The lane a work item is placed on, read off the routing table; a task
    without a route goes to the normal lane. *)
Definition lane (w : WorkItem) : Lane :=
  match Worker.route (task_name w) with
  | Some q => lane_of_queue q
  | None => Normal
  end.

(** Modelled from the spec: the two-lane dispatcher (section 4.2); in the
    repository dispatch is left to the broker.  [streak] counts the
    high-priority dispatches since the last normal one. *)
Record State : Type := mkState {
  high : list WorkItem;
  normal : list WorkItem;
  streak : nat
}.

Definition init : State := {| high := []; normal := []; streak := 0 |}.

Definition enqueue (w : WorkItem) (st : State) : State :=
  match lane w with
  | High => {| high := high st ++ [w]; normal := normal st; streak := streak st |}
  | Normal => {| high := high st; normal := normal st ++ [w]; streak := streak st |}
  end.

Section WithLimit.
(** The starvation limit [K] of the dispatcher's configuration. *)
Variable K : nat.

(** Modelled from the spec: one dispatch (section 4.2).  High-priority
    items go first, except that after [K] of them in a row a waiting
    normal item is served. *)
Definition dispatch (st : State) : option (Lane * WorkItem) * State :=
  match high st, normal st with
  | [], [] => (None, st)
  | h :: hs, [] =>
      (Some (High, h), {| high := hs; normal := []; streak := S (streak st) |})
  | [], n :: ns =>
      (Some (Normal, n), {| high := []; normal := ns; streak := 0 |})
  | h :: hs, n :: ns =>
      if decide (streak st < K)%nat
      then (Some (High, h), {| high := hs; normal := n :: ns; streak := S (streak st) |})
      else (Some (Normal, n), {| high := h :: hs; normal := ns; streak := 0 |})
  end.

Inductive Event : Type := Enqueue (w : WorkItem) | Dispatch.

(** One event applied to the dispatcher and its dispatch log (oldest
    entry first). *)
Definition step (c : State * list (Lane * WorkItem)) (e : Event)
    : State * list (Lane * WorkItem) :=
  match e with
  | Enqueue w => (enqueue w c.1, c.2)
  | Dispatch =>
      match dispatch c.1 with
      | (Some d, st') => (st', c.2 ++ [d])
      | (None, st') => (st', c.2)
      end
  end.

Definition run (evs : list Event) : State * list (Lane * WorkItem) :=
  foldl step (init, []) evs.

End WithLimit.

(** How many high-priority dispatches end the log. *)
Fixpoint trailing_high_rev (rlog : list (Lane * WorkItem)) : nat :=
  match rlog with
  | (High, _) :: rest => S (trailing_high_rev rest)
  | _ => 0%nat
  end.

Definition trailing_high (log : list (Lane * WorkItem)) : nat :=
  trailing_high_rev (reverse log).

End Dispatcher.

(** ** Reporting handlers (freight_mcp_server.py) *)

Module Reports.

(** JSON values of the statistics responses: integers, the float
    literals (as rationals) and nested objects. *)
#[warnings="-register-all"] Inductive json : Type :=
| JInt (n : Z)
| JFloat (q : QArith_base.Q)
| JObj (fields : gmap string json).

(** The float literal [0.0]. *)
Definition zero_float : QArith_base.Q := QArith_base.Qmake 0 1.

(** The default of the [format] query parameter. *)
Definition default_format : string := "csv".

Definition export_url (job_id format : string) : string :=
  "/downloads/" +:+ job_id +:+ "-logs." +:+ format.

Definition export_logs (job_id format : string) (tenant : string) : M pydict :=
  mret (<["export_url" := VStr (export_url job_id format)]>
        (<["expires_at" := VStr "2024-01-01T00:00:00Z"]> ∅)).

Definition by_status : gmap string json :=
  <["pending" := JInt 0]>
  (<["running" := JInt 0]>
  (<["completed" := JInt 0]>
  (<["failed" := JInt 0]> ∅))).

Definition get_job_stats (tenant : string) : M (gmap string json) :=
  mret (<["total_jobs" := JInt 0]>
        (<["by_status" := JObj by_status]>
        (<["success_rate" := JFloat zero_float]>
        (<["avg_duration_minutes" := JFloat zero_float]> ∅)))).

(** Platform-wide statistics; the handler takes no tenant. *)
Definition get_tenant_stats : M (gmap string json) :=
  mret (<["total_tenants" := JInt 0]>
        (<["active_jobs" := JInt 0]>
        (<["total_records_processed" := JInt 0]>
        (<["platform_success_rate" := JFloat zero_float]> ∅)))).

Definition get_worker_status : M (gmap string json) :=
  mret (<["active_workers" := JInt 0]>
        (<["queue_length" := JInt 0]>
        (<["processing_rate" := JFloat zero_float]> ∅))).

(** The integer counters of an object, other entries left out. *)
Definition counters (o : gmap string json) : gmap string Z :=
  omap (fun v => match v with JInt n => Some n | _ => None end) o.

(** The sum of the integer counters of an object. *)
Definition total (o : gmap string json) : Z :=
  map_fold (fun _ n acc => n + acc) 0 (counters o).

End Reports.

(** ** API application (core/config.py, api/main.py, api/routers/health.py) *)

Module Api.

Record Settings : Type := mkSettings {
  app_name : string;
  version : string;
  debug : bool;
  environment : string;
  secret_key : string;
  database_url : string;
  redis_url : string;
  celery_broker_url : string;
  celery_result_backend : string;
  api_v1_prefix : string;
  allowed_hosts : list string;
  github_personal_access_token : option string;
  railway_token : option string
}.

(** [Settings()] for given values of the two required fields, every other
    field at its declared default. *)
Definition default_settings (secret db : string) : Settings :=
  {| app_name := "Freight";
     version := "0.1.0";
     debug := false;
     environment := "development";
     secret_key := secret;
     database_url := db;
     redis_url := "redis://localhost:6379/0";
     celery_broker_url := "redis://localhost:6379/0";
     celery_result_backend := "redis://localhost:6379/1";
     api_v1_prefix := "/api/v1";
     allowed_hosts := ["*"];
     github_personal_access_token := None;
     railway_token := None |}.

Record CORSMiddleware : Type := mkCORSMiddleware {
  allow_origins : list string;
  allow_credentials : bool;
  allow_methods : list string;
  allow_headers : list string
}.

(** A registered route: method, path and the name of its handler. *)
Record Route : Type := mkRoute {
  route_method : string;
  route_path : string;
  route_handler : string
}.

(** The application object, as far as [create_app] sets it up: the
    constructor arguments it passes, the middleware it adds and the routes
    it includes.  The routes the framework registers on its own (the
    OpenAPI schema and the documentation pages) are not part of it. *)
Record FastAPI : Type := mkFastAPI {
  title : string;
  app_version : string;
  app_debug : bool;
  docs_url : option string;
  redoc_url : option string;
  user_middleware : list CORSMiddleware;
  included_routes : list Route
}.

(** The routes declared on [health.router]. *)
Definition health_router : list Route :=
  [ mkRoute "GET" "/" "health_check";
    mkRoute "GET" "/ready" "readiness_check";
    mkRoute "GET" "/live" "liveness_check" ].

Definition add_middleware (m : CORSMiddleware) (app : FastAPI) : FastAPI :=
  {| title := title app; app_version := app_version app;
     app_debug := app_debug app;
     docs_url := docs_url app; redoc_url := redoc_url app;
     user_middleware := m :: user_middleware app;
     included_routes := included_routes app |}.

(** [app.include_router(router, prefix=...)]: every route of the router
    is added under the prefix. *)
Definition include_router (router : list Route) (prefix : string)
    (app : FastAPI) : FastAPI :=
  {| title := title app; app_version := app_version app;
     app_debug := app_debug app;
     docs_url := docs_url app; redoc_url := redoc_url app;
     user_middleware := user_middleware app;
     included_routes := included_routes app ++
       ((fun r => mkRoute (route_method r) (prefix +:+ route_path r)
                          (route_handler r)) <$> router) |}.

Definition create_app (settings : Settings) : FastAPI :=
  let app :=
    {| title := app_name settings;
       app_version := version settings;
       app_debug := debug settings;
       docs_url := if debug settings then Some "/docs" else None;
       redoc_url := if debug settings then Some "/redoc" else None;
       user_middleware := [];
       included_routes := [] |} in
  let app :=
    add_middleware
      {| allow_origins := allowed_hosts settings;
         allow_credentials := true;
         allow_methods := ["*"];
         allow_headers := ["*"] |} app in
  let app := include_router health_router "/health" app in
  app.

End Api.

(** What [retry_job] reads of its request: the number of batch IDs when
    there is at least one. *)
Definition requested (rr : RetryRequest) : option nat :=
  match batch_ids rr with
  | Some (b :: bs) => Some (length (b :: bs))
  | _ => None
  end.

(** A ledger holding one job and one of its batches, used to run the
    handlers and tasks on concrete state. *)
Definition sample_job (tenant : string) (st : JobStatus) : MigrationJob :=
  {| id := "job-1"; tenant_id := tenant; status := st;
     record_count := 2; failed_batches := 0; started_by := "alice";
     created_at := 10; updated_at := 10 |}.

Definition sample_batch (tenant : string) (attempts : Z) (bst : BatchStatus) : Batch :=
  {| batch_id := "b-0"; batch_job_id := "job-1"; batch_tenant_id := tenant;
     records := [ {["id" := VInt 1]}; {["id" := VInt 2]} ];
     attempt_count := attempts; batch_status := bst; last_error := None |}.

Definition sample_ledger (tenant : string) (st : JobStatus)
    (attempts : Z) (bst : BatchStatus) : Ledger :=
  {| jobs := {["job-1" := sample_job tenant st]};
     batches := {[("job-1", "b-0") := sample_batch tenant attempts bst]};
     log_entries := [];
     queues := ∅ |}.

(** * Properties *)

(** ** Worker tasks *)

Section WorkerFacts.
Import Worker.

(** The worker unit test: two records, both counted as processed. *)
Example test_process_migration_batch_task :
  let recs : list pydict :=
    [ <["id" := VInt 1]> {["name" := VStr "test"]};
      <["id" := VInt 2]> {["name" := VStr "test2"]} ] in
  forall res,
  Handler.response
    (process_migration_batch (mkRequest 0) "tenant-123" "job-456" "batch-789" recs)
    empty_ledger = Ok res ->
  res !! "tenant_id" = Some (VStr "tenant-123") /\
  res !! "job_id" = Some (VStr "job-456") /\
  res !! "batch_id" = Some (VStr "batch-789") /\
  res !! "processed" = Some (VInt 2) /\
  res !! "failed" = Some (VInt 0) /\
  res !! "errors" = Some (VList []).
Proof.
  intros recs res [= <-]. repeat split; reflexivity.
Qed.

(** The task body is a single [return]: it yields its dictionary and
    leaves the service state alone. *)
Lemma process_migration_batch_run self tenant job batch recs (st : Ledger) :
  process_migration_batch self tenant job batch recs st =
  (Ok (<["tenant_id" := VStr tenant]>
       (<["job_id" := VStr job]>
       (<["batch_id" := VStr batch]>
       (<["processed" := VInt (len recs)]>
       (<["failed" := VInt 0]>
       (<["errors" := VList []]> ∅)))))), st).
Proof. reflexivity. Qed.

(** C9: for every input, [process_migration_batch] reports as many
    processed records as the list holds, zero failed records and an empty
    error list, whatever the records contain. *)
Theorem process_migration_batch_never_fails
    self tenant job batch (recs : list pydict) (st : Ledger) :
  exists res : pydict,
    Handler.response (process_migration_batch self tenant job batch recs) st = Ok res /\
    res !! "processed" = Some (VInt (Z.of_nat (length recs))) /\
    res !! "failed" = Some (VInt 0) /\
    res !! "errors" = Some (VList []).
Proof.
  eexists. unfold Handler.response.
  rewrite process_migration_batch_run. cbn [fst].
  split; [reflexivity|].
  repeat split; by simplify_map_eq.
Qed.

End WorkerFacts.

Section RetryEngineFacts.
Import Worker.

Lemma retry_failed_batch_run self tenant job batch (st : Ledger) :
  retry_failed_batch self tenant job batch st =
  (Ok (<["tenant_id" := VStr tenant]>
       (<["job_id" := VStr job]>
       (<["batch_id" := VStr batch]>
       (<["retry_attempt" := VInt (retries self + 1)]>
       (<["status" := VStr "retried"]> ∅))))), st).
Proof. reflexivity. Qed.

(** C2, as stated, fails: a batch that already used up the default
    ceiling of 3 retries is reported as retried a fourth time; it is not
    marked exhausted and the job's failed-batch count stays at 0. *)
Lemma retry_failed_batch_past_ceiling :
  let st := sample_ledger "tenant-a" RUNNING 3 BATCH_FAILED in
  let m := retry_failed_batch (mkRequest 3) "tenant-a" "job-1" "b-0" in
  ¬ (3 < default_max_retries) /\
  (exists res : pydict,
     Handler.response m st = Ok res /\
     res !! "status" = Some (VStr "retried") /\
     res !! "retry_attempt" = Some (VInt 4) /\
     default_max_retries < 4) /\
  batch_status <$> batches (Handler.final m st) !! ("job-1", "b-0") ≠ Some EXHAUSTED /\
  failed_batches <$> jobs (Handler.final m st) !! "job-1" = Some 0.
Proof.
  cbv zeta. split; [unfold default_max_retries; lia|].
  split.
  - eexists. split; [reflexivity|]. unfold default_max_retries.
    repeat split; by simplify_map_eq.
  - split; [|reflexivity]. by vm_compute.
Qed.

(** C2, amended: whatever the attempt count, [retry_failed_batch] reports
    status [retried] with attempt number [request.retries + 1], echoing
    the tenant, job and batch IDs, and the task is routed to the
    [high_priority] queue; no ceiling is consulted, and neither a batch
    status nor a failed-batch count is changed. *)
Theorem retry_failed_batch_always_retries
    self tenant job batch (st : Ledger) :
  (exists res : pydict,
     Handler.response (retry_failed_batch self tenant job batch) st = Ok res /\
     res !! "tenant_id" = Some (VStr tenant) /\
     res !! "job_id" = Some (VStr job) /\
     res !! "batch_id" = Some (VStr batch) /\
     res !! "retry_attempt" = Some (VInt (retries self + 1)) /\
     res !! "status" = Some (VStr "retried")) /\
  route "freight.worker.tasks.retry_failed_batch" = Some "high_priority" /\
  batches (Handler.final (retry_failed_batch self tenant job batch) st) = batches st /\
  jobs (Handler.final (retry_failed_batch self tenant job batch) st) = jobs st.
Proof.
  unfold Handler.response, Handler.final.
  rewrite retry_failed_batch_run. cbn [fst snd].
  split; [|split; [by vm_compute | done]].
  eexists. split; [reflexivity|].
  repeat split; by simplify_map_eq.
Qed.

End RetryEngineFacts.

Section BatchProcessorFacts.
Import Worker.

(** C4, as stated, fails: a batch whose two records are all processed
    (failed count 0) is not marked succeeded; the result carries no status
    and the batch row still reads running. *)
Lemma process_migration_batch_marks_nothing :
  let st := sample_ledger "tenant-a" RUNNING 0 BATCH_RUNNING in
  let m := process_migration_batch (mkRequest 0) "tenant-a" "job-1" "b-0"
             (records (sample_batch "tenant-a" 0 BATCH_RUNNING)) in
  (exists res : pydict,
     Handler.response m st = Ok res /\
     res !! "failed" = Some (VInt 0) /\
     res !! "status" = None) /\
  batch_status <$> batches (Handler.final m st) !! ("job-1", "b-0") ≠ Some SUCCEEDED.
Proof.
  cbv zeta. split.
  - eexists. split; [reflexivity|]. split; by simplify_map_eq.
  - by vm_compute.
Qed.

(** C4, amended: for every batch the task returns, without raising, an
    aggregate result made of the echoed tenant, job and batch IDs and the
    three entries [processed], [failed] and [errors], where [processed]
    counts every record of the batch, [failed] is 0 and [errors] is
    empty; the result has no other entry, and the task marks no batch as
    succeeded or failed (the batch table is left as it was). *)
Theorem process_migration_batch_aggregate
    self tenant job batch (recs : list pydict) (st : Ledger) :
  (exists res : pydict,
     Handler.response (process_migration_batch self tenant job batch recs) st = Ok res /\
     res !! "tenant_id" = Some (VStr tenant) /\
     res !! "job_id" = Some (VStr job) /\
     res !! "batch_id" = Some (VStr batch) /\
     res !! "processed" = Some (VInt (Z.of_nat (length recs))) /\
     res !! "failed" = Some (VInt 0) /\
     res !! "errors" = Some (VList []) /\
     dom res = {["tenant_id"; "job_id"; "batch_id"; "processed"; "failed"; "errors"]}) /\
  batches (Handler.final (process_migration_batch self tenant job batch recs) st)
    = batches st.
Proof.
  unfold Handler.response, Handler.final.
  rewrite process_migration_batch_run. cbn [fst snd].
  split; [|done].
  eexists. split; [reflexivity|].
  do 6 (split; [by simplify_map_eq|]).
  rewrite !dom_insert_L, dom_empty_L. set_solver.
Qed.

End BatchProcessorFacts.

(** ** Job-management handlers *)

Section JobManagerFacts.
Import Server.

Lemma get_tenant_id_nonempty (x : string) (st : Ledger) :
  x ≠ "" -> get_tenant_id x st = (Ok x, st).
Proof. intros Hx. unfold get_tenant_id. by case_decide. Qed.

Lemma get_tenant_id_empty (st : Ledger) :
  get_tenant_id "" st = (Raise (mkHTTPException 400 "X-Tenant-ID header required"), st).
Proof. reflexivity. Qed.

(** Behind the tenant dependency, [get_job] answers with an error for
    every header value: 400 for an empty one, 404 otherwise. *)
Lemma get_job_endpoint_raises (x job_id : string) (st : Ledger) :
  exists e, Handler.response (endpoint x (get_job job_id)) st = Raise e /\
            (status_code e = 400 \/ status_code e = 404).
Proof.
  unfold Handler.response, endpoint, mbind, handler_bind, Handler.bind.
  destruct (decide (x = "")) as [->|Hx].
  - rewrite get_tenant_id_empty. eexists; split; [reflexivity|]. by left.
  - rewrite get_tenant_id_nonempty by done. eexists; split; [reflexivity|]. by right.
Qed.

(** C3: when tenant A asks for a job that the ledger holds for another
    tenant B, [get_job] raises 404 "Job not found"; the answer is the same
    whatever the ledger contains, so nothing of the job is disclosed, and
    the endpoint behind the tenant header never returns a job either. *)
Theorem get_job_tenant_isolation
    (st : Ledger) (tenant_a tenant_b job_id : string) (j : MigrationJob) :
  tenant_a ≠ tenant_b ->
  jobs st !! job_id = Some j ->
  tenant_id j = tenant_b ->
  Handler.response (get_job job_id tenant_a) st
    = Raise (mkHTTPException 404 "Job not found") /\
  (forall st' : Ledger,
     Handler.response (get_job job_id tenant_a) st'
     = Handler.response (get_job job_id tenant_a) st) /\
  (forall j' : MigrationJob,
     Handler.response (endpoint tenant_a (get_job job_id)) st ≠ Ok j').
Proof.
  intros _ _ _. split; [reflexivity|]. split; [reflexivity|].
  intros j' Hj'.
  destruct (get_job_endpoint_raises tenant_a job_id st) as (e & He & _).
  congruence.
Qed.

Lemma get_job_tenant_isolation_witness :
  Handler.response (get_job "job-1" "tenant-a")
    (sample_ledger "tenant-b" RUNNING 0 QUEUED)
    = Raise (mkHTTPException 404 "Job not found").
Proof.
  refine (proj1 (get_job_tenant_isolation
                   (sample_ledger "tenant-b" RUNNING 0 QUEUED)
                   "tenant-a" "tenant-b" "job-1"
                   (sample_job "tenant-b" RUNNING) _ _ _)).
  - discriminate.
  - vm_compute. reflexivity.
  - reflexivity.
Defined.

(** C5, as stated, fails: a request with batch size 0, a negative retry
    ceiling and empty source and target configurations is accepted, and a
    pending job is returned for it. *)
Lemma create_job_accepts_invalid_request :
  let req := mkCreateJobRequest ∅ ∅ 0 (-1) "alice" in
  ¬ (0 < batch_size req) /\ ¬ (0 <= max_retries req) /\
  source_config req = ∅ /\ target_config req = ∅ /\
  exists job : MigrationJob,
    Handler.response
      (endpoint "tenant-a" (create_job "6f1c2d9e-0000-4000-8000-000000000001" 10 11 req))
      empty_ledger = Ok job /\
    status job = PENDING.
Proof.
  cbv zeta. cbn [batch_size max_retries source_config target_config].
  split; [lia|]. split; [lia|]. split; [done|]. split; [done|].
  eexists. split; reflexivity.
Qed.

(** C5, amended: [create_job] validates nothing and never fails: for
    every request, whatever its batch size, retry ceiling and
    configurations, it returns a new job in status pending for the
    requesting tenant, with record count 0 and failed-batch count 0. *)
Theorem create_job_returns_pending
    (uuid4 : string) (utcnow1 utcnow2 : Z)
    (req : CreateJobRequest) (tenant : string) (st : Ledger) :
  Handler.response (create_job uuid4 utcnow1 utcnow2 req tenant) st =
  Ok {| id := uuid4; tenant_id := tenant; status := PENDING;
        record_count := 0; failed_batches := 0;
        started_by := req_started_by req;
        created_at := utcnow1; updated_at := utcnow2 |}.
Proof. reflexivity. Qed.

(** The handler only builds the job: nothing is stored or queued. *)
Lemma create_job_frame uuid4 utcnow1 utcnow2 req tenant (st : Ledger) :
  Handler.final (create_job uuid4 utcnow1 utcnow2 req tenant) st = st.
Proof. reflexivity. Qed.

(** No member of [JobStatus] carries the string "cancelled". *)
Lemma JobStatus_no_cancelled (s : JobStatus) : JobStatus_value s ≠ "cancelled".
Proof. by destruct s. Qed.

(** C6: evaluation of [cancel_job] on a pending job.  The handler says
    the job is cancelled, yet the job is still pending afterwards, and no
    job status spells "cancelled". *)
Theorem cancel_job_leaves_job_pending :
  let st := sample_ledger "tenant-a" PENDING 0 QUEUED in
  let m := endpoint "tenant-a" (cancel_job "job-1") in
  Handler.response m st
    = Ok (<["message" := VStr "Job job-1 cancelled"]> {["job_id" := VStr "job-1"]}) /\
  status <$> jobs (Handler.final m st) !! "job-1" = Some PENDING /\
  (forall s : JobStatus, JobStatus_value s ≠ "cancelled").
Proof.
  cbv zeta. split; [reflexivity|]. split; [reflexivity|].
  apply JobStatus_no_cancelled.
Qed.

(** C10: [retry_job] and [cancel_job] return a message naming the job
    and change nothing: jobs, batches, log entries and queues are the
    same after the call as before, for every input. *)
Theorem retry_and_cancel_change_nothing
    (job_id tenant : string) (rr : RetryRequest) (st : Ledger) :
  (Handler.final (retry_job job_id rr tenant) st = st /\
   exists res : pydict,
     Handler.response (retry_job job_id rr tenant) st = Ok res /\
     res !! "message" = Some (VStr ("Retry initiated for job " +:+ job_id)) /\
     res !! "job_id" = Some (VStr job_id) /\
     res !! "retry_count" =
       Some (match batch_ids rr with
             | Some (b :: bs) => VInt (Z.of_nat (length (b :: bs)))
             | _ => VStr "all_failed"
             end) /\
     dom res = {["message"; "job_id"; "retry_count"]}) /\
  (Handler.final (cancel_job job_id tenant) st = st /\
   Handler.response (cancel_job job_id tenant) st
     = Ok (<["message" := VStr ("Job " +:+ job_id +:+ " cancelled")]>
           {["job_id" := VStr job_id]})).
Proof.
  split; split; try reflexivity.
  eexists. split; [reflexivity|].
  do 2 (split; [by simplify_map_eq|]).
  split.
  - rewrite lookup_insert_ne by done. rewrite lookup_insert_ne by done.
    rewrite lookup_insert_eq. by destruct (batch_ids rr) as [[|]|].
  - rewrite !dom_insert_L, dom_empty_L. set_solver.
Qed.

End JobManagerFacts.

(** ** Batcher *)

Section ChunkFacts.
Import Batcher.
Context {A : Type}.
Implicit Types (l : list A) (n i : nat).

Lemma chunks_stop n l : n = 0%nat ∨ l = [] -> chunks n l = [].
Proof.
  intros H. simp chunks.
  destruct (decide (n = 0%nat ∨ l = [])) as [|Hne]; [done|by destruct Hne].
Qed.

Lemma chunks_go n l :
  n ≠ 0%nat -> l ≠ [] -> chunks n l = take n l :: chunks n (drop n l).
Proof.
  intros Hn Hl. rewrite chunks_equation_1.
  destruct (decide (n = 0%nat ∨ l = [])) as [[|]|]; done.
Qed.

(** Induction following the slices the Batcher cuts. *)
Lemma chunks_induction (P : list A -> list (list A) -> Prop) n :
  n ≠ 0%nat ->
  P [] [] ->
  (forall l, l ≠ [] ->
     P (drop n l) (chunks n (drop n l)) ->
     P l (take n l :: chunks n (drop n l))) ->
  forall l, P l (chunks n l).
Proof.
  intros Hn Hnil Hcons l.
  remember (length l) as m eqn:Hm. revert l Hm.
  induction m as [m IH] using lt_wf_ind. intros l ->.
  destruct (decide (l = [])) as [->|Hl].
  - by rewrite chunks_stop by auto.
  - rewrite chunks_go by done. apply Hcons; [done|].
    apply (IH (length (drop n l))); [|done].
    rewrite length_drop. destruct l; [done|simpl; lia].
Qed.

(** In order, the slices make up the input again. *)
Lemma chunks_concat n l : n ≠ 0%nat -> concat (chunks n l) = l.
Proof.
  intros Hn. apply (chunks_induction (fun l cs => concat cs = l)); [done|done|].
  intros l' _ IH. simpl. rewrite IH. apply take_drop.
Qed.

Lemma chunks_bounded n l : Forall (fun c => (length c <= n)%nat) (chunks n l).
Proof.
  destruct (decide (n = 0%nat)) as [->|Hn].
  - rewrite chunks_stop by auto. constructor.
  - apply (chunks_induction (fun _ cs => Forall (fun c => (length c <= n)%nat) cs));
      [done|constructor|].
    intros l' _ IH. constructor; [|done]. rewrite length_take. lia.
Qed.

Lemma chunks_nonempty n l : Forall (fun c => c ≠ []) (chunks n l).
Proof.
  destruct (decide (n = 0%nat)) as [->|Hn].
  - rewrite chunks_stop by auto. constructor.
  - apply (chunks_induction (fun _ cs => Forall (fun c => c ≠ []) cs));
      [done|constructor|].
    intros l' Hl' IH. constructor; [|done].
    destruct l', n; done.
Qed.

Lemma ceil_div_0 n : ceil_div 0 n = 0%nat.
Proof.
  unfold ceil_div. destruct n as [|n]; [done|].
  apply Nat.div_small. lia.
Qed.

Lemma ceil_div_step m n :
  n ≠ 0%nat -> m ≠ 0%nat -> ceil_div m n = S (ceil_div (m - n) n).
Proof.
  intros Hn Hm. unfold ceil_div.
  destruct (decide (n <= m)%nat) as [Hle|Hgt].
  - replace (m + (n - 1))%nat with ((m - n + (n - 1)) + 1 * n)%nat by lia.
    rewrite Nat.div_add by done. lia.
  - replace (m - n)%nat with 0%nat by lia.
    rewrite (Nat.div_small (0 + (n - 1)) n) by lia.
    symmetry. apply (Nat.div_unique _ _ 1 (m - 1)); lia.
Qed.

(** The number of slices is the ceiling of the quotient. *)
Lemma chunks_length n l :
  n ≠ 0%nat -> length (chunks n l) = ceil_div (length l) n.
Proof.
  intros Hn.
  apply (chunks_induction (fun l cs => length cs = ceil_div (length l) n)); [done| |].
  - by rewrite ceil_div_0.
  - intros l' Hl' IH. simpl. rewrite IH, length_drop.
    rewrite (ceil_div_step (length l') n); [done|done|by destruct l'].
Qed.

(** Every slice but the last is full. *)
Lemma chunks_full n l i (c : list A) :
  chunks n l !! i = Some c ->
  (S i < length (chunks n l))%nat ->
  length c = n.
Proof.
  destruct (decide (n = 0%nat)) as [->|Hn].
  { by rewrite chunks_stop by auto. }
  revert i c.
  apply (chunks_induction (fun l cs => forall i c,
    cs !! i = Some c -> (S i < length cs)%nat -> length c = n)); [done|done|].
  intros l' Hl' IH [|i] c Hc Hlt; simpl in *.
  - injection Hc as <-. rewrite length_take.
    destruct (decide (drop n l' = [])) as [He|Hne].
    + rewrite He, chunks_stop in Hlt by auto. simpl in Hlt. lia.
    + assert (length (drop n l') ≠ 0%nat) as Hd by by destruct (drop n l').
      rewrite length_drop in Hd. lia.
  - apply (IH i); [done|lia].
Qed.

(** The slice at index [i] is the window of [n] elements starting at
    [i * n]. *)
Lemma chunks_lookup n l i (c : list A) :
  chunks n l !! i = Some c -> c = take n (drop (i * n) l).
Proof.
  destruct (decide (n = 0%nat)) as [->|Hn].
  { by rewrite chunks_stop by auto. }
  revert i c.
  apply (chunks_induction (fun l cs => forall i c,
    cs !! i = Some c -> c = take n (drop (i * n) l))); [done|done|].
  intros l' Hl' IH [|i] c Hc; simpl in *.
  - by injection Hc as <-.
  - rewrite (IH i c Hc), drop_drop. do 2 f_equal; lia.
Qed.

End ChunkFacts.

Section BatcherFacts.
Import Batcher.
Variable mk_batch_id : string -> nat -> string.

Lemma batcher_invalid job tenant (R : list pydict) (size : Z) :
  size <= 0 -> batcher mk_batch_id job tenant R size = inl InvalidConfiguration.
Proof. intros H. unfold batcher. by case_decide. Qed.

Lemma batcher_valid job tenant (R : list pydict) (size : Z) :
  0 < size ->
  batcher mk_batch_id job tenant R size
  = inr (imap (mk_batch mk_batch_id job tenant) (chunks (Z.to_nat size) R)).
Proof. intros H. unfold batcher. case_decide; [lia|done]. Qed.

Lemma records_mk_batches job tenant (cs : list (list pydict)) :
  records <$> imap (mk_batch mk_batch_id job tenant) cs = cs.
Proof.
  apply list_eq. intros i.
  rewrite list_lookup_fmap, list_lookup_imap. by destruct (cs !! i).
Qed.

(** [ceil_div n b] is the least number of groups of [b] that cover [n]. *)
Lemma ceil_div_spec (n b : nat) :
  b ≠ 0%nat -> (n <= ceil_div n b * b < n + b)%nat.
Proof.
  intros Hb. unfold ceil_div.
  pose proof (Nat.div_mod_eq (n + (b - 1)) b) as Hdm.
  pose proof (Nat.mod_upper_bound (n + (b - 1)) b Hb) as Hlt.
  nia.
Qed.

(** The design document's scenario: 2500 records in batches of 1000
    give three batches of 1000, 1000 and 500 records. *)
Example batcher_2500_by_1000 :
  exists bs : list Batch,
    batcher mk_batch_id "job-1" "tenant-a" (replicate 2500 ∅) 1000 = inr bs /\
    length <$> (records <$> bs) = [1000; 1000; 500]%nat.
Proof.
  eexists. split; [by apply batcher_valid|].
  rewrite records_mk_batches. by vm_compute.
Qed.

(** C1: for a positive batch size the Batcher succeeds, and its batches,
    taken in order, hold exactly the input records (none lost, none
    repeated, order kept); no batch holds more than the batch size; there
    are ceil(|R| / size) batches, the least number whose capacity covers
    the records; every batch but the last is full. *)
Theorem batcher_partitions job tenant (R : list pydict) (size : Z) :
  0 < size ->
  exists bs : list Batch,
    batcher mk_batch_id job tenant R size = inr bs /\
    concat (records <$> bs) = R /\
    Forall (fun b => Z.of_nat (length (records b)) <= size) bs /\
    length bs = ceil_div (length R) (Z.to_nat size) /\
    Z.of_nat (length R) <= Z.of_nat (length bs) * size < Z.of_nat (length R) + size /\
    (forall i b, bs !! i = Some b -> (S i < length bs)%nat ->
                 Z.of_nat (length (records b)) = size).
Proof.
  intros Hsize. eexists. split; [by apply batcher_valid|].
  assert (Z.to_nat size ≠ 0%nat) as Hn by lia.
  split; [|split; [|split; [|split]]].
  - rewrite records_mk_batches. by apply chunks_concat.
  - apply Forall_fmap with (f := records) (P := fun c => Z.of_nat (length c) <= size).
    rewrite records_mk_batches.
    eapply Forall_impl; [apply chunks_bounded|]. simpl. intros c Hc. lia.
  - rewrite length_imap. by apply chunks_length.
  - rewrite length_imap, chunks_length by done.
    pose proof (ceil_div_spec (length R) (Z.to_nat size) Hn). nia.
  - intros i b Hb Hlt. rewrite length_imap in Hlt.
    rewrite list_lookup_imap in Hb.
    destruct (chunks (Z.to_nat size) R !! i) as [c|] eqn:Hc; [|done].
    injection Hb as <-. simpl.
    rewrite (chunks_full _ _ _ _ Hc Hlt). lia.
Qed.

(** The ID at an index is the same whatever the records and the batch
    size of the run are. *)
Lemma batcher_id_by_index
    job tenant1 tenant2 (R1 R2 : list pydict) (size1 size2 : Z) bs1 bs2 i b1 b2 :
  batcher mk_batch_id job tenant1 R1 size1 = inr bs1 ->
  batcher mk_batch_id job tenant2 R2 size2 = inr bs2 ->
  bs1 !! i = Some b1 -> bs2 !! i = Some b2 ->
  batch_id b1 = batch_id b2.
Proof.
  unfold batcher. do 2 (case_decide; [done|]).
  intros [= <-] [= <-]. rewrite !list_lookup_imap.
  destruct (chunks _ R1 !! i), (chunks _ R2 !! i); try done.
  by intros [= <-] [= <-].
Qed.

(** The batch at each position, spelled out: its ID is made from the job
    ID and the position, its records are the window of [size] records
    starting at [i * size]. *)
Lemma batcher_lookup job tenant (R : list pydict) (size : Z) bs i b :
  batcher mk_batch_id job tenant R size = inr bs ->
  bs !! i = Some b ->
  batch_id b = mk_batch_id job i /\
  records b = take (Z.to_nat size) (drop (i * Z.to_nat size) R).
Proof.
  unfold batcher. case_decide; [done|]. intros [= <-].
  rewrite list_lookup_imap.
  destruct (chunks (Z.to_nat size) R !! i) as [c|] eqn:Hc; [|done].
  intros [= <-]. simpl. split; [done|]. by apply chunks_lookup.
Qed.

(** When the naming keeps the indices of a job apart, the batches of a
    run have pairwise different IDs. *)
Lemma batcher_ids_unique job tenant (R : list pydict) (size : Z) bs :
  (forall i j, mk_batch_id job i = mk_batch_id job j -> i = j) ->
  batcher mk_batch_id job tenant R size = inr bs ->
  NoDup (batch_id <$> bs).
Proof.
  intros Hinj Hbs. apply NoDup_alt. intros i j x.
  rewrite !list_lookup_fmap.
  destruct (bs !! i) as [bi|] eqn:Hi; [|done].
  destruct (bs !! j) as [bj|] eqn:Hj; [|done].
  simpl. intros [= <-] [= Heq].
  destruct (batcher_lookup _ _ _ _ _ _ _ Hbs Hi) as [Hidi _].
  destruct (batcher_lookup _ _ _ _ _ _ _ Hbs Hj) as [Hidj _].
  apply Hinj. congruence.
Qed.

(** C8: two runs of the Batcher on the same job ID, record set and batch
    size give the same IDs and the same contents, batch by batch: in both
    there are ceil(|R| / size) batches, and the batch at position [i] has
    the ID made from the job ID and [i] and holds the records from
    [i * size] up to [(i + 1) * size].  The ID at a position depends on
    the job ID and the position only: a run on another record set, with
    another batch size, gives the batch at that position the same ID. *)
Theorem batcher_idempotent
    job tenant1 tenant2 (R : list pydict) (size : Z) (bs1 bs2 : list Batch) :
  batcher mk_batch_id job tenant1 R size = inr bs1 ->
  batcher mk_batch_id job tenant2 R size = inr bs2 ->
  batch_id <$> bs1 = batch_id <$> bs2 /\
  records <$> bs1 = records <$> bs2 /\
  length bs1 = ceil_div (length R) (Z.to_nat size) /\
  (forall i b, bs1 !! i = Some b ->
     batch_id b = mk_batch_id job i /\
     records b = take (Z.to_nat size) (drop (i * Z.to_nat size) R)) /\
  (forall tenant' (R' : list pydict) (size' : Z) (bs' : list Batch) i b b',
     batcher mk_batch_id job tenant' R' size' = inr bs' ->
     bs1 !! i = Some b -> bs' !! i = Some b' ->
     batch_id b = batch_id b').
Proof.
  intros H1 H2.
  assert (0 < size) as Hsize.
  { unfold batcher in H1. by case_decide; [|lia]. }
  pose proof H1 as E1. pose proof H2 as E2.
  rewrite (batcher_valid job tenant1 R size Hsize) in E1.
  rewrite (batcher_valid job tenant2 R size Hsize) in E2.
  injection E1 as E1. injection E2 as E2.
  split; [|split; [|split; [|split]]].
  - rewrite <- E1, <- E2. apply list_eq. intros i.
    rewrite !list_lookup_fmap, !list_lookup_imap.
    by destruct (chunks (Z.to_nat size) R !! i).
  - rewrite <- E1, <- E2. by rewrite !records_mk_batches.
  - rewrite <- E1, length_imap. apply chunks_length. lia.
  - intros i b Hb. by apply (batcher_lookup job tenant1 R size bs1).
  - intros tenant' R' size' bs' i b b' H' Hb Hb'.
    by apply (batcher_id_by_index job tenant1 tenant' R R' size size' bs1 bs' i).
Qed.

End BatcherFacts.

Lemma batcher_partitions_witness :
  exists bs : list Batch,
    Batcher.batcher Batcher.numbered_batch_id "job-1" "tenant-a"
      [ {["id" := VInt 1]}; {["id" := VInt 2]}; {["id" := VInt 3]} ] 2 = inr bs /\
    concat (records <$> bs)
      = [ {["id" := VInt 1]}; {["id" := VInt 2]}; {["id" := VInt 3]} ] /\
    Forall (fun b => Z.of_nat (length (records b)) <= 2) bs /\
    length bs = Batcher.ceil_div 3 (Z.to_nat 2) /\
    Z.of_nat 3 <= Z.of_nat (length bs) * 2 < Z.of_nat 3 + 2 /\
    (forall i b, bs !! i = Some b -> (S i < length bs)%nat ->
                 Z.of_nat (length (records b)) = 2).
Proof.
  apply (batcher_partitions Batcher.numbered_batch_id "job-1" "tenant-a"
           [ {["id" := VInt 1]}; {["id" := VInt 2]}; {["id" := VInt 3]} ] 2).
  lia.
Defined.

Lemma batcher_idempotent_witness :
  let bs1 :=
    [ mkBatch "job-1-0" "job-1" "tenant-a" [ {["id" := VInt 1]}; {["id" := VInt 2]} ]
        0 QUEUED None;
      mkBatch "job-1-1" "job-1" "tenant-a" [ {["id" := VInt 3]} ] 0 QUEUED None ] in
  let bs2 :=
    [ mkBatch "job-1-0" "job-1" "tenant-b" [ {["id" := VInt 1]}; {["id" := VInt 2]} ]
        0 QUEUED None;
      mkBatch "job-1-1" "job-1" "tenant-b" [ {["id" := VInt 3]} ] 0 QUEUED None ] in
  batch_id <$> bs1 = batch_id <$> bs2 /\
  records <$> bs1 = records <$> bs2 /\
  length bs1 = Batcher.ceil_div 3 (Z.to_nat 2).
Proof.
  cbv zeta.
  destruct (batcher_idempotent Batcher.numbered_batch_id "job-1" "tenant-a" "tenant-b"
              [ {["id" := VInt 1]}; {["id" := VInt 2]}; {["id" := VInt 3]} ] 2
              [ mkBatch "job-1-0" "job-1" "tenant-a"
                  [ {["id" := VInt 1]}; {["id" := VInt 2]} ] 0 QUEUED None;
                mkBatch "job-1-1" "job-1" "tenant-a" [ {["id" := VInt 3]} ] 0 QUEUED None ]
              [ mkBatch "job-1-0" "job-1" "tenant-b"
                  [ {["id" := VInt 1]}; {["id" := VInt 2]} ] 0 QUEUED None;
                mkBatch "job-1-1" "job-1" "tenant-b" [ {["id" := VInt 3]} ] 0 QUEUED None ])
    as (Hids & Hrecs & Hlen & _).
  - vm_compute. reflexivity.
  - vm_compute. reflexivity.
  - exact (conj Hids (conj Hrecs Hlen)).
Defined.

(** ** Dispatcher *)

Section DispatcherFacts.
Import Dispatcher.

Lemma route_process :
  Worker.route "freight.worker.tasks.process_migration_batch" = Some "default".
Proof. by vm_compute. Qed.

Lemma route_retry :
  Worker.route "freight.worker.tasks.retry_failed_batch" = Some "high_priority".
Proof. by vm_compute. Qed.

Lemma lane_process tenant job batch : lane (BatchProcess tenant job batch) = Normal.
Proof. unfold lane. simpl. by rewrite route_process. Qed.

Lemma lane_retry tenant job batch : lane (BatchRetry tenant job batch) = High.
Proof. unfold lane. simpl. by rewrite route_retry. Qed.

Lemma trailing_high_snoc_high log w :
  trailing_high (log ++ [(High, w)]) = S (trailing_high log).
Proof. unfold trailing_high. by rewrite reverse_snoc. Qed.

Lemma trailing_high_snoc_normal log w :
  trailing_high (log ++ [(Normal, w)]) = 0%nat.
Proof. unfold trailing_high. by rewrite reverse_snoc. Qed.

Variable K : nat.

(** A dispatch keeps the counter equal to the run of high-priority
    dispatches that ends the log. *)
Lemma step_streak c e :
  streak c.1 = trailing_high c.2 ->
  streak (step K c e).1 = trailing_high (step K c e).2.
Proof.
  destruct c as [[hi no k] log]. simpl. intros ->.
  destruct e as [w|]; simpl.
  - unfold enqueue. by destruct (lane w).
  - unfold dispatch. simpl.
    destruct hi as [|h hs], no as [|n ns]; simpl; try done.
    + by rewrite trailing_high_snoc_normal.
    + by rewrite trailing_high_snoc_high.
    + case_decide; simpl.
      * by rewrite trailing_high_snoc_high.
      * by rewrite trailing_high_snoc_normal.
Qed.

Lemma run_streak evs :
  streak (run K evs).1 = trailing_high (run K evs).2.
Proof.
  unfold run. induction evs as [|e evs IH] using rev_ind; [done|].
  rewrite foldl_app. simpl. by apply step_streak.
Qed.

(** C7: a batch-retry item is placed at the back of the high-priority
    lane and a batch-processing item at the back of the normal lane, as
    the routing table says.  After any history of enqueues and dispatches,
    if both lanes hold an item and fewer than [K] high-priority dispatches
    end the log, the head of the high-priority lane is served; if the
    normal lane holds an item and the log ends with [K] or more
    high-priority dispatches, the head of the normal lane is served. *)
Theorem dispatcher_priority_without_starvation :
  (forall tenant job batch st,
     enqueue (BatchRetry tenant job batch) st
       = {| high := high st ++ [BatchRetry tenant job batch];
            normal := normal st; streak := streak st |} /\
     enqueue (BatchProcess tenant job batch) st
       = {| high := high st;
            normal := normal st ++ [BatchProcess tenant job batch];
            streak := streak st |}) /\
  (forall evs st log h hs n ns,
     run K evs = (st, log) ->
     high st = h :: hs -> normal st = n :: ns ->
     (trailing_high log < K)%nat ->
     (dispatch K st).1 = Some (High, h)) /\
  (forall evs st log n ns,
     run K evs = (st, log) ->
     normal st = n :: ns ->
     (K <= trailing_high log)%nat ->
     (dispatch K st).1 = Some (Normal, n)).
Proof.
  split; [|split].
  - intros tenant job batch st. unfold enqueue.
    by rewrite lane_retry, lane_process.
  - intros evs st log h hs n ns Hrun Hh Hn Hlt.
    pose proof (run_streak evs) as Hs. rewrite Hrun in Hs. simpl in Hs.
    unfold dispatch. rewrite Hh, Hn. case_decide; [done|lia].
  - intros evs st log n ns Hrun Hn Hge.
    pose proof (run_streak evs) as Hs. rewrite Hrun in Hs. simpl in Hs.
    unfold dispatch. rewrite Hn.
    destruct (high st) as [|h hs]; [done|]. case_decide; [lia|done].
Qed.

End DispatcherFacts.

(** With [K = 2]: one first attempt and three retries are waiting; the
    first two dispatches are retries, the third is the first attempt. *)
Lemma dispatcher_priority_without_starvation_witness :
  let p := Dispatcher.BatchProcess "tenant-a" "job-1" "b-0" in
  let r1 := Dispatcher.BatchRetry "tenant-a" "job-1" "b-1" in
  let r2 := Dispatcher.BatchRetry "tenant-a" "job-1" "b-2" in
  let r3 := Dispatcher.BatchRetry "tenant-a" "job-1" "b-3" in
  let evs := [Dispatcher.Enqueue p; Dispatcher.Enqueue r1; Dispatcher.Enqueue r2;
              Dispatcher.Enqueue r3; Dispatcher.Dispatch; Dispatcher.Dispatch] in
  (Dispatcher.run 2 evs).2 = [(Dispatcher.High, r1); (Dispatcher.High, r2)] /\
  (Dispatcher.dispatch 2 (Dispatcher.run 2 evs).1).1 = Some (Dispatcher.Normal, p).
Proof.
  cbv zeta. split; [by vm_compute|].
  refine (proj2 (proj2 (dispatcher_priority_without_starvation 2)) _ _ _ _ _ _ _ _).
  - apply surjective_pairing.
  - vm_compute. reflexivity.
  - vm_compute. lia.
Defined.

(** * Further properties of the code *)

(** ** The tenant dependency *)

Section TenantDependencyFacts.
Import Server.

(** The endpoint wrapper, one case per outcome of the dependency. *)
Lemma endpoint_cases {A : Type} (x : string) (body : string -> M A) (st : Ledger) :
  endpoint x body st =
  if decide (x = "")
  then (Raise (mkHTTPException 400 "X-Tenant-ID header required"), st)
  else body x st.
Proof.
  unfold endpoint, mbind, handler_bind, Handler.bind, get_tenant_id.
  by case_decide.
Qed.

(** X3: a job returned by the create endpoint always belongs to the
    tenant named in the header, and that tenant is never the empty
    string; the job carries the fresh UUID and is pending. *)
Theorem create_job_endpoint_tenant
    (x uuid4 : string) (utcnow1 utcnow2 : Z) (req : CreateJobRequest)
    (st : Ledger) (job : MigrationJob) :
  Handler.response (endpoint x (create_job uuid4 utcnow1 utcnow2 req)) st = Ok job ->
  x ≠ "" /\ tenant_id job = x /\ id job = uuid4 /\ status job = PENDING.
Proof.
  unfold Handler.response. rewrite endpoint_cases.
  case_decide; [done|]. simpl. by intros [= <-].
Qed.

Lemma create_job_endpoint_tenant_witness :
  "tenant-a" ≠ "" /\
  tenant_id (mkMigrationJob "job-1" "tenant-a" PENDING 0 0 "alice" 10 11) = "tenant-a" /\
  id (mkMigrationJob "job-1" "tenant-a" PENDING 0 0 "alice" 10 11) = "job-1" /\
  status (mkMigrationJob "job-1" "tenant-a" PENDING 0 0 "alice" 10 11) = PENDING.
Proof.
  apply (create_job_endpoint_tenant "tenant-a" "job-1" 10 11
           (mkCreateJobRequest ∅ ∅ 1000 3 "alice") empty_ledger
           (mkMigrationJob "job-1" "tenant-a" PENDING 0 0 "alice" 10 11)).
  reflexivity.
Defined.

End TenantDependencyFacts.

(** ** Manual retry *)

Section RetryJobFacts.
Import Server.

Lemma retry_job_run job rr tenant (st : Ledger) :
  retry_job job rr tenant st =
  (Ok (<["message" := VStr ("Retry initiated for job " +:+ job)]>
       (<["job_id" := VStr job]>
       (<["retry_count" :=
            match requested rr with
            | Some n => VInt (Z.of_nat n)
            | None => VStr "all_failed"
            end]> ∅))), st).
Proof.
  unfold retry_job, requested. by destruct (batch_ids rr) as [[|b bs]|].
Qed.

(** X4: the answer of [retry_job] depends on the job ID and on how many
    batch IDs were given, and on nothing else: not on the IDs themselves,
    the [max_retries] override, the tenant or the store.  In particular an
    empty list of batch IDs is answered like an absent one. *)
Theorem retry_job_reads_only_count
    job (rr rr' : RetryRequest) tenant tenant' (st st' : Ledger) :
  requested rr = requested rr' ->
  Handler.response (retry_job job rr tenant) st
  = Handler.response (retry_job job rr' tenant') st'.
Proof.
  intros Hreq. unfold Handler.response.
  by rewrite !retry_job_run, Hreq.
Qed.

Lemma retry_job_reads_only_count_witness :
  Handler.response
    (retry_job "job-1" (mkRetryRequest (Some []) (Some 5)) "tenant-a") empty_ledger
  = Handler.response
      (retry_job "job-1" (mkRetryRequest None None) "tenant-b")
      (sample_ledger "tenant-b" FAILED 3 BATCH_FAILED).
Proof.
  apply (retry_job_reads_only_count "job-1"
           (mkRetryRequest (Some []) (Some 5)) (mkRetryRequest None None)).
  reflexivity.
Defined.

(** X5: when [retry_job] reports a number as [retry_count], batch IDs
    were given, the number is how many (repetitions included), and it is
    at least 1; a count of 0 is never reported. *)
Theorem retry_job_count_positive
    job (rr : RetryRequest) tenant (st : Ledger) (res : pydict) (n : Z) :
  Handler.response (retry_job job rr tenant) st = Ok res ->
  res !! "retry_count" = Some (VInt n) ->
  1 <= n /\ exists ids, batch_ids rr = Some ids /\ n = Z.of_nat (length ids).
Proof.
  unfold Handler.response. rewrite retry_job_run. simpl. intros [= <-].
  rewrite lookup_insert_ne by done. rewrite lookup_insert_ne by done.
  rewrite lookup_insert_eq. unfold requested.
  destruct (batch_ids rr) as [[|b bs]|]; try done.
  intros [= <-]. split; [simpl; lia|]. by eexists.
Qed.

Lemma retry_job_count_positive_witness :
  1 <= 2 /\
  exists ids, Some ["b-0"; "b-0"] = Some ids /\ 2 = Z.of_nat (length ids).
Proof.
  apply (retry_job_count_positive "job-1"
           (mkRetryRequest (Some ["b-0"; "b-0"]) None) "tenant-a" empty_ledger
           (<["message" := VStr "Retry initiated for job job-1"]>
            (<["job_id" := VStr "job-1"]>
            (<["retry_count" := VInt 2]> ∅)))).
  - reflexivity.
  - vm_compute. reflexivity.
Defined.

End RetryJobFacts.

(** ** Log export *)

Section ExportFacts.
Import Reports.

Lemma string_length_app (a b : string) :
  String.length (a +:+ b) = (String.length a + String.length b)%nat.
Proof. induction a as [|c a IH]; simpl; [done|by rewrite IH]. Qed.

(** Appending the same suffix to different strings keeps them apart. *)
Lemma string_app_inj_r (s a b : string) : a +:+ s = b +:+ s -> a = b.
Proof.
  revert b. induction a as [|c a IH]; intros [|d b] H.
  - done.
  - apply (f_equal String.length) in H.
    rewrite !string_length_app in H. simpl in H. lia.
  - apply (f_equal String.length) in H.
    rewrite !string_length_app in H. simpl in H. lia.
  - injection H as -> H. f_equal. by apply IH.
Qed.

Lemma export_logs_url job fmt tenant (st : Ledger) (res : pydict) :
  Handler.response (export_logs job fmt tenant) st = Ok res ->
  res !! "export_url" = Some (VStr (export_url job fmt)).
Proof. intros [= <-]. by simplify_map_eq. Qed.

(** X6: two exports that answer with the same URL and were asked in the
    same format are exports of the same job, and two exports of one job
    with the same URL were asked in the same format, whoever the tenants
    are. *)
Theorem export_logs_url_separates
    job job' fmt fmt' tenant tenant' (st st' : Ledger) (res res' : pydict) :
  Handler.response (export_logs job fmt tenant) st = Ok res ->
  Handler.response (export_logs job' fmt' tenant') st' = Ok res' ->
  res !! "export_url" = res' !! "export_url" ->
  (fmt = fmt' -> job = job') /\ (job = job' -> fmt = fmt').
Proof.
  intros Hres Hres' Hurl.
  rewrite (export_logs_url _ _ _ _ _ Hres), (export_logs_url _ _ _ _ _ Hres') in Hurl.
  injection Hurl as Hurl. unfold export_url in Hurl.
  apply String.app_inj in Hurl. split.
  - intros <-. by apply string_app_inj_r in Hurl.
  - intros <-. by do 2 apply String.app_inj in Hurl.
Qed.

Lemma export_logs_url_separates_witness :
  ("csv" = "csv" -> "job-1" = "job-1") /\ ("job-1" = "job-1" -> "csv" = "csv").
Proof.
  apply (export_logs_url_separates "job-1" "job-1" "csv" "csv" "tenant-a" "tenant-b"
           empty_ledger empty_ledger
           (<["export_url" := VStr "/downloads/job-1-logs.csv"]>
            (<["expires_at" := VStr "2024-01-01T00:00:00Z"]> ∅))
           (<["export_url" := VStr "/downloads/job-1-logs.csv"]>
            (<["expires_at" := VStr "2024-01-01T00:00:00Z"]> ∅)));
    reflexivity.
Defined.

(** Job ID and format together are not recovered from the URL: the
    format is not checked, so a dot in it can shift the boundary. *)
Example export_url_collision :
  export_url "a-logs.b" "c" = export_url "a" "b-logs.c".
Proof. reflexivity. Qed.

End ExportFacts.

(** ** Queue routing and batch accounting *)

Section WorkerExtraFacts.
Import Worker.

(** X7: the routing table sends exactly two task names to a queue, batch
    processing to [default] and batch retry to [high_priority]; every
    other task name (the worker's health check among them) has no
    route. *)
Theorem route_characterisation (name q : string) :
  route name = Some q <->
  (name = "freight.worker.tasks.process_migration_batch" /\ q = "default") \/
  (name = "freight.worker.tasks.retry_failed_batch" /\ q = "high_priority").
Proof.
  unfold route, task_routes.
  destruct (decide (name = "freight.worker.tasks.process_migration_batch")) as [->|Hp].
  { rewrite lookup_insert_eq. simpl. rewrite lookup_singleton_eq.
    split; [intros [= <-]; by left|]. by intros [[_ ->]|[? _]]. }
  rewrite lookup_insert_ne by done.
  destruct (decide (name = "freight.worker.tasks.retry_failed_batch")) as [->|Hr].
  { rewrite lookup_insert_eq. simpl. rewrite lookup_singleton_eq.
    split; [intros [= <-]; by right|]. by intros [[? _]|[_ ->]]. }
  rewrite lookup_insert_ne by done. rewrite lookup_empty. simpl.
  split; [done|]. by intros [[? _]|[? _]].
Qed.

Lemma route_characterisation_witness :
  route "freight.worker.tasks.retry_failed_batch" = Some "high_priority".
Proof.
  apply (proj2 (route_characterisation
                  "freight.worker.tasks.retry_failed_batch" "high_priority")).
  right. split; reflexivity.
Defined.

(** The worker's health check is registered but not routed. *)
Example route_health_check : route "freight.worker.tasks.health_check" = None.
Proof. by vm_compute. Qed.

(** The worker unit test of the health check. *)
Example test_health_check_task :
  health_check !! "status" = Some (VStr "healthy") /\
  health_check !! "worker" = Some (VStr "operational").
Proof. split; by vm_compute. Qed.

(** X8: the processed count is additive: a batch processed in two parts
    reports in total what it reports when processed whole, and in every
    case no failure. *)
Theorem process_migration_batch_additive
    self tenant job b1 b2 b (recs1 recs2 : list pydict) (st : Ledger)
    (res1 res2 res : pydict) (n1 n2 : Z) :
  Handler.response (process_migration_batch self tenant job b1 recs1) st = Ok res1 ->
  Handler.response (process_migration_batch self tenant job b2 recs2) st = Ok res2 ->
  Handler.response (process_migration_batch self tenant job b (recs1 ++ recs2)) st = Ok res ->
  res1 !! "processed" = Some (VInt n1) ->
  res2 !! "processed" = Some (VInt n2) ->
  res !! "processed" = Some (VInt (n1 + n2)) /\ 0 <= n1 /\ 0 <= n2.
Proof.
  intros [= <-] [= <-] [= <-] H1 H2.
  simplify_map_eq. unfold len. rewrite length_app. split; [f_equal; f_equal|]; lia.
Qed.

Lemma process_migration_batch_additive_witness :
  (<["tenant_id" := VStr "tenant-a"]>
   (<["job_id" := VStr "job-1"]>
   (<["batch_id" := VStr "b-0"]>
   (<["processed" := VInt 3]>
   (<["failed" := VInt 0]>
   (<["errors" := VList []]> (∅ : pydict))))))) !! "processed" = Some (VInt (1 + 2)) /\
  0 <= 1 /\ 0 <= 2.
Proof.
  apply (process_migration_batch_additive (mkRequest 0) "tenant-a" "job-1"
           "b-0" "b-0" "b-0" [∅] [∅; ∅] empty_ledger
           (<["tenant_id" := VStr "tenant-a"]>
            (<["job_id" := VStr "job-1"]>
            (<["batch_id" := VStr "b-0"]>
            (<["processed" := VInt 1]>
            (<["failed" := VInt 0]>
            (<["errors" := VList []]> ∅))))))
           (<["tenant_id" := VStr "tenant-a"]>
            (<["job_id" := VStr "job-1"]>
            (<["batch_id" := VStr "b-0"]>
            (<["processed" := VInt 2]>
            (<["failed" := VInt 0]>
            (<["errors" := VList []]> ∅))))))); try reflexivity;
    vm_compute; reflexivity.
Defined.

End WorkerExtraFacts.

(** ** The API application *)

Section ApiFacts.
Import Api.

(** X9: the interactive documentation is served only in debug mode: the
    application has a docs URL exactly when [debug] is set, and likewise
    a redoc URL; without [debug] it has neither. *)
Theorem create_app_docs_only_in_debug (settings : Settings) :
  (is_Some (docs_url (create_app settings)) <-> debug settings = true) /\
  (is_Some (redoc_url (create_app settings)) <-> debug settings = true) /\
  (debug settings = false ->
   docs_url (create_app settings) = None /\ redoc_url (create_app settings) = None).
Proof.
  unfold create_app. simpl. destruct (debug settings); simpl.
  - repeat split; eauto; done.
  - repeat split; try done; by intros [? ?].
Qed.

Lemma create_app_docs_only_in_debug_witness :
  docs_url (create_app (default_settings "s3cret" "postgresql://db/freight")) = None /\
  redoc_url (create_app (default_settings "s3cret" "postgresql://db/freight")) = None.
Proof.
  apply (proj2 (proj2 (create_app_docs_only_in_debug
                         (default_settings "s3cret" "postgresql://db/freight")))).
  reflexivity.
Defined.

End ApiFacts.

(** ** Job statistics *)

Section StatsFacts.
Import Reports.

Lemma by_status_dom : dom by_status = {["pending"; "running"; "completed"; "failed"]}.
Proof. unfold by_status. rewrite !dom_insert_L, dom_empty_L. set_solver. Qed.

(** X11: the status breakdown of [get_job_stats] has one counter for
    every job status and none for any other name, and [total_jobs] is the
    sum of the counters. *)
Theorem get_job_stats_breakdown (tenant : string) (st : Ledger) :
  exists (res bs : gmap string json),
    Handler.response (get_job_stats tenant) st = Ok res /\
    res !! "by_status" = Some (JObj bs) /\
    (forall name : string,
       is_Some (bs !! name) <-> exists s : JobStatus, JobStatus_value s = name) /\
    (forall s : JobStatus, exists n : Z, bs !! JobStatus_value s = Some (JInt n)) /\
    res !! "total_jobs" = Some (JInt (total bs)).
Proof.
  exists (<["total_jobs" := JInt 0]>
          (<["by_status" := JObj by_status]>
          (<["success_rate" := JFloat zero_float]>
          (<["avg_duration_minutes" := JFloat zero_float]> ∅)))), by_status.
  split; [reflexivity|]. split; [by simplify_map_eq|].
  split; [|split].
  - intros name. rewrite <- elem_of_dom, by_status_dom.
    rewrite !elem_of_union, !elem_of_singleton. split.
    + intros [[[->| ->]| ->]| ->];
        [by exists PENDING|by exists RUNNING|by exists COMPLETED|by exists FAILED].
    + intros [[] <-]; simpl; tauto.
  - intros []; eexists; by vm_compute.
  - by vm_compute.
Qed.

End StatsFacts.
